(** * opentmi_client.transport.transport: the HTTP transport wrapper

    A shallow embedding of [src/opentmi_client/transport/transport.py].

    The module is glue around three collaborators that live outside the
    repository's transport file: the [requests] HTTP client, the JSON
    decoder and the logger.  The embedding keeps the control flow of the
    wrapper as it is written (the [try]/[except] clauses with their order,
    the early [return], the keyword arguments handed to [requests]) and
    records every call to a collaborator in a trace, so that what was
    logged and what was sent can be stated.

    Python objects are mutated in place and [set_token] returns [self];
    instances therefore live in a store indexed by references. *)

From stdpp Require Import base option list strings pretty gmap fin_maps.
From Stdlib Require Import ZArith Ascii String.

Local Open Scope Z_scope.
Set Warnings "-register-all".

(** ** Python values *)

(** The values that travel through the wrapper as JSON payloads and as
    decoded bodies.  Python's [None] is the decoding of JSON [null]. *)
Inductive PyVal : Type :=
| PyNone
| PyBool (b : bool)
| PyInt (z : Z)
| PyStr (s : string)
| PyList (items : list PyVal)
| PyDict (items : list (string * PyVal)).

(** Truthiness of a value, as tested by [if v:] and by [not v]. *)
Definition truthy (v : PyVal) : bool :=
  match v with
  | PyNone => false
  | PyBool b => b
  | PyInt z => negb (z =? 0)
  | PyStr s => negb (String.eqb s EmptyString)
  | PyList l => match l with [] => false | _ => true end
  | PyDict l => match l with [] => false | _ => true end
  end.

Definition py_not (v : PyVal) : bool := negb (truthy v).

(** ** Exceptions *)

(** Subclasses of [requests.RequestException].  The wrapper never looks
    at the subclass.  [JSONDecodeError], which [response.json()] raises,
    and [InvalidURL] derive from [ValueError] as well. *)
Inductive RequestErrorKind : Type :=
| ConnectionError
| Timeout
| JSONDecodeError
| InvalidURL
| OtherRequestError.

Definition also_ValueError (kind : RequestErrorKind) : bool :=
  match kind with
  | JSONDecodeError | InvalidURL => true
  | _ => false
  end.

(** Exception objects.  Each built-in exception carries the text that
    [str(error)] renders.

    [RequestException] stands for every instance of
    [requests.RequestException], including the ones that also derive from
    [ValueError] (InvalidURL, the client's own JSONDecodeError): every
    [try] of the module lists [except RequestException] first, so such an
    exception is always taken by that clause.

    [OtherException] is an instance of [Exception] of no class that the
    module names; [BaseExceptionOnly] derives from [BaseException] and
    not from [Exception] (KeyboardInterrupt, SystemExit). *)
Inductive PyExc : Type :=
| RequestException (kind : RequestErrorKind) (text : string)
| ValueError (text : string)
| TypeError (text : string)
| KeyError (text : string)
| AssertionError
| AttributeError (text : string)
| OtherException (text : string)
| BaseExceptionOnly (text : string)
| TransportException (message : Message) (code : option Z)
with Message : Type :=
| MsgStr (s : string)
| MsgExc (e : PyExc).

(** Modelled from the spec: [TransportException] is declared in
    [opentmi_client.utils], which is not part of the sources at hand.  It
    "carries a human-readable message and an optional status code"; the
    code defaults to [None] when the constructor gets one argument.  The
    module passes a string as message everywhere but in two handlers of
    [post_json] and [put_json], which pass the caught exception object.
    It is an ordinary [Exception] subclass, neither a [RequestException]
    nor a [ValueError] or [TypeError], and [str] renders its message. *)
Definition TransportException1 (message : Message) : PyExc :=
  TransportException message None.

Fixpoint str (error : PyExc) : string :=
  match error with
  | RequestException _ text => text
  | ValueError text => text
  | TypeError text => text
  | KeyError text => text
  | AssertionError => EmptyString
  | AttributeError text => text
  | OtherException text => text
  | BaseExceptionOnly text => text
  | TransportException message _ =>
      match message with
      | MsgStr s => s
      | MsgExc e => str e
      end
  end.

(** The classes that appear in [except] clauses. *)
Module cls.
Inductive t : Type :=
| Exception
| RequestException
| ValueError
| TypeError
| KeyError.
End cls.

Definition isinstance (error : PyExc) (c : cls.t) : bool :=
  match c, error with
  | cls.Exception, BaseExceptionOnly _ => false
  | cls.Exception, _ => true
  | cls.RequestException, RequestException _ _ => true
  | cls.ValueError, ValueError _ => true
  | cls.ValueError, RequestException kind _ => also_ValueError kind
  | cls.TypeError, TypeError _ => true
  | cls.KeyError, KeyError _ => true
  | _, _ => false
  end.

(** ** Results of Python computations *)

Inductive outcome (A : Type) : Type :=
| Return (a : A)
| Raise (error : PyExc).
Arguments Return {A} a.
Arguments Raise {A} error.

(** ** HTTP requests and responses *)

Inductive Verb : Type := GET | POST | PUT.

(** The keyword arguments of one call to [requests.get], [requests.post]
    or [requests.put].  An argument that the call does not pass has its
    default, [None]. *)
Record Request : Type := mkRequest {
  verb : Verb;
  url : string;
  json : PyVal;
  headers : option (gmap string string);
  files : option (list (string * string));
  timeout : Z;
  params : option (list (string * string))
}.

(** [requests.Response], as far as the wrapper reads it, for a response
    that the client returns: its status is the integer the server sent. *)
Record Response : Type := mkResponse {
  status_code : Z;
  text : string
}.

(** Arguments that [Transport.is_success] may be handed: a response
    that the client returned, a [requests.Response()] as its constructor
    leaves it (its [status_code] is [None]), a plain value, or an object
    of some other class that happens to have a [status_code] attribute. *)
Inductive PyObj : Type :=
| ObjResponse (r : Response)
| ObjNewResponse
| ObjValue (v : PyVal)
| ObjDuck (status : Z).

Definition isinstance_Response (o : PyObj) : bool :=
  match o with
  | ObjResponse _ => true
  | ObjNewResponse => true
  | _ => false
  end.

Definition getattr_status_code (o : PyObj) : outcome PyVal :=
  match o with
  | ObjResponse r => Return (PyInt (status_code r))
  | ObjNewResponse => Return PyNone
  | ObjDuck status => Return (PyInt status)
  | ObjValue _ => Raise (AttributeError "status_code")
  end.

Definition type_name (v : PyVal) : string :=
  match v with
  | PyNone => "NoneType"
  | PyBool _ => "bool"
  | PyInt _ => "int"
  | PyStr _ => "str"
  | PyList _ => "list"
  | PyDict _ => "dict"
  end.

(** The chained comparison [300 > code >= 200], that is
    [300 > code and code >= 200].  An integer is compared, and so is a
    boolean, which is an integer; for any other value the first
    comparison raises, as Python 3 has it. *)
Definition in_success_range (code : PyVal) : outcome bool :=
  match code with
  | PyInt c => Return ((c <? 300) && (200 <=? c))
  | PyBool b => Return ((Z.b2z b <? 300) && (200 <=? Z.b2z b))
  | other =>
      Raise (TypeError ("'>' not supported between instances of 'int' and '"
                          +:+ type_name other +:+ "'"))
  end.

(** ** The collaborators *)

(** What the module imports and does not define.  [send] is the HTTP
    client: it answers a request with a response or raises.
    [Response_json] is the method [response.json()], [json_loads] is
    [json.loads], [resolve_host] comes from [opentmi_client.utils]. *)
Record Collaborators : Type := mkCollaborators {
  send : Request -> outcome Response;
  Response_json : Response -> outcome PyVal;
  json_loads : string -> outcome PyVal;
  resolve_host : string -> Z -> outcome string
}.

(** ** State, trace and the monad of methods *)

Inductive Level : Type := DEBUG | INFO | WARNING.

Inductive Event : Type :=
| Log (level : Level) (line : string)
| Sent (request : Request).

(** The fields of a [Transport] instance ([self.__token], [self.__host]).
    The token is [None] or a string, the "optional bearer credential
    string" of the specification; a token of another type is not
    covered.  The logger is the process-wide one and is not a field
    here. *)
Record Instance : Type := mkInstance {
  __token : option string;
  __host : option string
}.

Definition loc := nat.

Record World : Type := mkWorld {
  heap : gmap nat Instance;
  trace : list Event
}.

Definition M (A : Type) : Type := World -> outcome A * World.

Definition outcome_bind {A B} (m : outcome A) (f : A -> outcome B) : outcome B :=
  match m with
  | Return a => f a
  | Raise e => Raise e
  end.

Definition ret {A} (a : A) : M A := fun w => (Return a, w).

Definition bind {A B} (m : M A) (f : A -> M B) : M B :=
  fun w =>
    match m w with
    | (Return a, w') => f a w'
    | (Raise e, w') => (Raise e, w')
    end.

Declare Scope py_scope.
Delimit Scope py_scope with py.
Bind Scope py_scope with M.
Notation "x ← y ; z" := (bind y (fun x => z))
  (at level 20, y at level 100, z at level 200, only parsing) : py_scope.
Notation "x ;; z" := (bind x (fun _ => z))
  (at level 100, z at level 200, only parsing, right associativity) : py_scope.
Local Open Scope py_scope.

Definition raise {A} (error : PyExc) : M A := fun w => (Raise error, w).

(** A pure computation that may raise, run inside a method. *)
Definition lift {A} (o : outcome A) : M A := fun w => (o, w).

Definition emit (ev : Event) : M unit :=
  fun w => (Return tt, mkWorld (heap w) (trace w ++ [ev])).

(** [try: body except C1 as error: h1 except C2 as error: h2 ...]: the
    first clause one of whose classes the exception is an instance of
    handles it; an exception raised by a handler is not offered to the
    other clauses. *)
Definition Handler (A : Type) : Type := (list cls.t * (PyExc -> M A))%type.

Fixpoint dispatch {A} (error : PyExc) (clauses : list (Handler A)) : M A :=
  match clauses with
  | [] => raise error
  | (classes, h) :: rest =>
      if existsb (isinstance error) classes then h error
      else dispatch error rest
  end.

Definition try_except {A} (body : M A) (clauses : list (Handler A)) : M A :=
  fun w =>
    match body w with
    | (Return a, w') => (Return a, w')
    | (Raise error, w') => dispatch error clauses w'
    end.

(** Attribute access on [self]. *)
Definition getattr {A} (self : loc) (field : Instance -> A) : M A :=
  fun w =>
    match heap w !! self with
    | Some o => (Return (field o), w)
    | None => (Raise (AttributeError "self"), w)
    end.

Definition setattr (self : loc) (update : Instance -> Instance) : M unit :=
  fun w => (Return tt, mkWorld (alter update self (heap w)) (trace w)).

Definition new_object (o : Instance) : M loc :=
  fun w =>
    let self := fresh (dom (heap w)) in
    (Return self, mkWorld (<[self := o]> (heap w)) (trace w)).

(** The logger. *)
Definition logger_debug (line : string) : M unit := emit (Log DEBUG line).
Definition logger_info (line : string) : M unit := emit (Log INFO line).
Definition logger_warning (line : string) : M unit := emit (Log WARNING line).

(** [str(x)] for an integer, and [%s] of an optional string. *)
Definition str_int (z : Z) : string := pretty z.
Definition str_opt (s : option string) : string := default "None" s.

(** ** The module *)

Definition REQUEST_TIMEOUT : Z := 30.
Definition NOT_FOUND : Z := 404.

Module Transport.

(** The class attribute [__request_timeout = 10]; no method reads it. *)
Definition __request_timeout : Z := 10.

Section Methods.
Variable env : Collaborators.

(** [requests.get(url, headers=..., timeout=..., params=...)] *)
Definition requests_get (url : string) (headers : option (gmap string string))
    (timeout : Z) (params : option (list (string * string))) : M Response :=
  let request := mkRequest GET url PyNone headers None timeout params in
  emit (Sent request);; lift (send env request).

(** [requests.post(url, json=..., headers=..., files=..., timeout=...)] *)
Definition requests_post (url : string) (json : PyVal)
    (headers : option (gmap string string))
    (files : option (list (string * string))) (timeout : Z) : M Response :=
  let request := mkRequest POST url json headers files timeout None in
  emit (Sent request);; lift (send env request).

(** [requests.put(url, json=..., headers=..., timeout=...)] *)
Definition requests_put (url : string) (json : PyVal)
    (headers : option (gmap string string)) (timeout : Z) : M Response :=
  let request := mkRequest PUT url json headers None timeout None in
  emit (Sent request);; lift (send env request).

(** [set_host]: [self.__host = resolve_host(host, port)] *)
Definition set_host (self : loc) (host : string) (port : Z) : M unit :=
  resolved ← lift (resolve_host env host port);
  setattr self (fun o => mkInstance (__token o) (Some resolved)).

(** The property [host]. *)
Definition host (self : loc) : M (option string) :=
  getattr self __host.

(** [Transport(host, port)]; the defaults are ['localhost'] and [3000]. *)
Definition __init__ (host_arg : string) (port : Z) : M loc :=
  self ← new_object (mkInstance None None);
  set_host self host_arg port;;
  h ← host self;
  logger_info ("OpenTMI host: " +:+ str_opt h);;
  ret self.

(** [set_token]: [self.__token = token; return self] *)
Definition set_token (self : loc) (token : option string) : M loc :=
  setattr self (fun o => mkInstance token (__host o));;
  ret self.

(** The dictionary that the body of the property [__headers] builds in
    its local variable [headers]. *)
Definition headers_local (token : option string) : gmap string string :=
  let headers : gmap string string :=
    <["Connection" := "close"]> {["content-type" := "application/json"]} in
  match token with
  | Some tok =>
      if truthy (PyStr tok)
      then <["Authorization" := "Bearer " +:+ tok]> headers
      else headers
  | None => headers
  end.

(** The property [__headers].  Its body ends after the [if]: there is
    no [return], so the call evaluates to [None] and the dictionary is
    dropped. *)
Definition __headers (self : loc) : M (option (gmap string string)) :=
  token ← getattr self __token;
  let headers := headers_local token in
  ret None.

(** [is_success], a static method. *)
Definition is_success (response : PyObj) : outcome bool :=
  if isinstance_Response response then
    outcome_bind (getattr_status_code response) (fun code =>
    in_success_range code)
  else Raise AssertionError.

(** [get_json].  The body of the [try] yields [Some v] when it leaves
    the method through [return response.json()] and [None] when it
    falls through to the final [return None]. *)
Definition get_json (self : loc) (url : string)
    (params : option (list (string * string))) : M PyVal :=
  returned ← try_except (A := option PyVal)
    (logger_debug ("GET: " +:+ url);;
     headers ← __headers self;
     response ← requests_get url headers REQUEST_TIMEOUT params;
     ok ← lift (is_success (ObjResponse response));
     if ok then
       v ← lift (Response_json env response);
       ret (Some v)
     else if status_code response =? NOT_FOUND then
       logger_warning "not found";;
       ret None
     else
       logger_warning ("Request failed: " +:+ text response +:+ " (code: "
                         +:+ str_int (status_code response) +:+ ")");;
       raise (TransportException (MsgStr (text response))
                                 (Some (status_code response))))
    [ ([cls.RequestException], fun error =>
         logger_warning ("Connection error " +:+ str error);;
         raise (TransportException1 (MsgStr (str error))));
      ([cls.ValueError; cls.TypeError], fun error =>
         raise (TransportException1 (MsgStr (str error)))) ];
  match returned with
  | Some v => ret v
  | None => ret PyNone
  end.

(** [post_json].  The conditional expression reads
    [files if not None else []]: its test is [not None]. *)
Definition post_json (self : loc) (url : string) (payload : PyVal)
    (files : option (list (string * string))) : M PyVal :=
  try_except (A := PyVal)
    (headers ← __headers self;
     response ← requests_post url payload headers
                  (if py_not PyNone then files else Some [])
                  REQUEST_TIMEOUT;
     ok ← lift (is_success (ObjResponse response));
     if ok then
       data ← lift (json_loads env (text response));
       ret data
     else
       logger_warning ("status_code: " +:+ str_int (status_code response));;
       logger_warning (text response);;
       raise (TransportException (MsgStr (text response))
                                 (Some (status_code response))))
    [ ([cls.RequestException], fun error =>
         logger_warning (str error);;
         raise (TransportException1 (MsgStr (str error))));
      ([cls.ValueError; cls.TypeError; cls.KeyError], fun error =>
         raise (TransportException1 (MsgExc error))) ].

(** [put_json].  The last clause is [except Exception]. *)
Definition put_json (self : loc) (url : string) (payload : PyVal) : M PyVal :=
  try_except (A := PyVal)
    (headers ← __headers self;
     response ← requests_put url payload headers REQUEST_TIMEOUT;
     ok ← lift (is_success (ObjResponse response));
     if ok then
       data ← lift (json_loads env (text response));
       ret data
     else
       logger_warning ("status_code: " +:+ str_int (status_code response));;
       logger_warning (text response);;
       raise (TransportException (MsgStr (text response))
                                 (Some (status_code response))))
    [ ([cls.RequestException], fun error =>
         logger_warning (str error);;
         raise (TransportException1 (MsgStr (str error))));
      ([cls.ValueError; cls.TypeError], fun error =>
         raise (TransportException1 (MsgExc error)));
      ([cls.Exception], fun error =>
         logger_warning (str error);;
         raise (TransportException1 (MsgStr (str error)))) ].

End Methods.
End Transport.

(** ** Reading a trace *)

(** The requests handed to the HTTP client, in order. *)
Fixpoint requests_of (events : list Event) : list Request :=
  match events with
  | [] => []
  | Sent request :: rest => request :: requests_of rest
  | Log _ _ :: rest => requests_of rest
  end.

(** A method [m] keeps to a discipline [P] on events: it leaves every
    instance as it was and only appends events that satisfy [P]. *)
Definition appends (P : Event -> Prop) {A} (m : M A) : Prop :=
  forall w, heap (m w).2 = heap w /\
            exists events, trace (m w).2 = trace w ++ events /\ Forall P events.

(** The discipline of the three verbs: whatever is sent carries the fixed
    timeout. *)
Definition fixed_timeout (ev : Event) : Prop :=
  match ev with
  | Sent request => timeout request = REQUEST_TIMEOUT
  | Log _ _ => True
  end.

(** The requests as the three verbs build them.  [headers] is [None] in
    each, being the value of the property [__headers]. *)
Definition get_request (url : string)
    (params : option (list (string * string))) : Request :=
  mkRequest GET url PyNone None None REQUEST_TIMEOUT params.

Definition post_request (url : string) (payload : PyVal)
    (files : option (list (string * string))) : Request :=
  mkRequest POST url payload None files REQUEST_TIMEOUT None.

Definition put_request (url : string) (payload : PyVal) : Request :=
  mkRequest PUT url payload None None REQUEST_TIMEOUT None.

(** [w] with [events] appended to its trace. *)
Definition logging (w : World) (events : list Event) : World :=
  mkWorld (heap w) (trace w ++ events).

(** ** Example collaborators

    The statements below hold for every HTTP client, decoder and host
    resolver.  Closed examples need particular ones: a client that gives
    one fixed answer, a decoder for compact JSON (no blanks, no escapes,
    integers as the only numbers) and a resolver that joins scheme, host
    and port. *)

Definition dquote : ascii := "034"%char.

Definition is_digit (c : ascii) : bool :=
  (48 <=? Z.of_nat (nat_of_ascii c)) && (Z.of_nat (nat_of_ascii c) <=? 57).

Fixpoint read_digits (acc : Z) (s : string) : Z * string :=
  match s with
  | String c rest =>
      if is_digit c
      then read_digits (10 * acc + (Z.of_nat (nat_of_ascii c) - 48)) rest
      else (acc, s)
  | EmptyString => (acc, s)
  end.

(** The characters up to the closing quote, and what follows it. *)
Fixpoint read_string (s : string) : option (string * string) :=
  match s with
  | EmptyString => None
  | String c rest =>
      if Ascii.eqb c dquote then Some (EmptyString, rest)
      else match read_string rest with
           | Some (body, tail) => Some (String c body, tail)
           | None => None
           end
  end.

Fixpoint decode (fuel : nat) (s : string) : option (PyVal * string) :=
  match fuel with
  | O => None
  | S fuel =>
      match s with
      | String "n" (String "u" (String "l" (String "l" rest))) =>
          Some (PyNone, rest)
      | String "t" (String "r" (String "u" (String "e" rest))) =>
          Some (PyBool true, rest)
      | String "f" (String "a" (String "l" (String "s" (String "e" rest)))) =>
          Some (PyBool false, rest)
      | String "[" (String "]" rest) => Some (PyList [], rest)
      | String "{" (String "}" rest) => Some (PyDict [], rest)
      | String "[" rest =>
          match decode_items fuel rest with
          | Some (items, tail) => Some (PyList items, tail)
          | None => None
          end
      | String "{" rest =>
          match decode_members fuel rest with
          | Some (items, tail) => Some (PyDict items, tail)
          | None => None
          end
      | String "-" (String c rest) =>
          if is_digit c
          then let (n, tail) := read_digits 0 (String c rest) in
               Some (PyInt (- n), tail)
          else None
      | String c rest =>
          if Ascii.eqb c dquote then
            match read_string rest with
            | Some (body, tail) => Some (PyStr body, tail)
            | None => None
            end
          else if is_digit c then
            let (n, tail) := read_digits 0 s in Some (PyInt n, tail)
          else None
      | EmptyString => None
      end
  end
with decode_items (fuel : nat) (s : string) : option (list PyVal * string) :=
  match fuel with
  | O => None
  | S fuel =>
      match decode fuel s with
      | Some (v, String "," rest) =>
          match decode_items fuel rest with
          | Some (items, tail) => Some (v :: items, tail)
          | None => None
          end
      | Some (v, String "]" rest) => Some ([v], rest)
      | _ => None
      end
  end
with decode_members (fuel : nat) (s : string)
    : option (list (string * PyVal) * string) :=
  match fuel with
  | O => None
  | S fuel =>
      match s with
      | String c rest =>
          if Ascii.eqb c dquote then
            match read_string rest with
            | Some (key, String ":" after_colon) =>
                match decode fuel after_colon with
                | Some (v, String "," more) =>
                    match decode_members fuel more with
                    | Some (items, tail) => Some ((key, v) :: items, tail)
                    | None => None
                    end
                | Some (v, String "}" tail) => Some ([(key, v)], tail)
                | _ => None
                end
            | _ => None
            end
          else None
      | EmptyString => None
      end
  end.

Definition example_loads (s : string) : outcome PyVal :=
  match decode (S (String.length s)) s with
  | Some (v, EmptyString) => Return v
  | Some (_, String _ _) => Raise (ValueError "Extra data")
  | None => Raise (ValueError "Expecting value")
  end.

Definition example_resolve_host (host : string) (port : Z) : outcome string :=
  Return ("http://" +:+ host +:+ ":" +:+ str_int port).

Definition example_env (answer : outcome Response) : Collaborators :=
  mkCollaborators (fun _ => answer) (fun r => example_loads (text r))
    example_loads example_resolve_host.

(** [response.json()] as [requests] has it: a body that does not decode
    raises the client's own [JSONDecodeError], which is a
    [RequestException] and a [ValueError]. *)
Definition example_Response_json (r : Response) : outcome PyVal :=
  match example_loads (text r) with
  | Raise (ValueError reason) => Raise (RequestException JSONDecodeError reason)
  | other => other
  end.

Definition requests_env (answer : outcome Response) : Collaborators :=
  mkCollaborators (fun _ => answer) example_Response_json example_loads
    example_resolve_host.

(** The body with the one member [a] equal to [1], in JSON. *)
Definition body_a1 : string :=
  "{" +:+ String dquote "a" +:+ String dquote ":1}".

Definition server_error : Response := mkResponse 500 "server error".

(** [Transport()] in an empty store, and the same followed by
    [set_token("abc")]. *)
Definition fresh_world : World :=
  (Transport.__init__ (example_env (Return server_error)) "localhost" 3000
     (mkWorld ∅ [])).2.

Definition world_with_token : World :=
  (Transport.set_token 0%nat (Some "abc") fresh_world).2.

(** * Properties *)

(** ** Equations of the monad *)

Section Equations.
Context {A B : Type}.

Lemma bind_ret (a : A) (f : A -> M B) w : bind (ret a) f w = f a w.
Proof. reflexivity. Qed.

Lemma bind_raise (e : PyExc) (f : A -> M B) w :
  bind (raise e) f w = (Raise e, w).
Proof. reflexivity. Qed.

Lemma bind_emit ev (f : unit -> M B) w :
  bind (emit ev) f w = f tt (logging w [ev]).
Proof. reflexivity. Qed.

Lemma bind_getattr self o (field : Instance -> A) (f : A -> M B) w :
  heap w !! self = Some o ->
  bind (getattr self field) f w = f (field o) w.
Proof. intros live. unfold bind, getattr. now rewrite live. Qed.

Lemma try_except_dispatch (body : M A) clauses w e w' :
  body w = (Raise e, w') ->
  try_except body clauses w = dispatch e clauses w'.
Proof. intros Hbody. unfold try_except. now rewrite Hbody. Qed.

Lemma try_except_return (body : M A) clauses w a w' :
  body w = (Return a, w') ->
  try_except body clauses w = (Return a, w').
Proof. intros Hbody. unfold try_except. now rewrite Hbody. Qed.

Lemma dispatch_caught (e : PyExc) classes (h : PyExc -> M A) rest :
  existsb (isinstance e) classes = true ->
  dispatch e ((classes, h) :: rest) = h e.
Proof. intros Hin. cbn. now rewrite Hin. Qed.

Lemma dispatch_passed (e : PyExc) classes (h : PyExc -> M A) rest :
  existsb (isinstance e) classes = false ->
  dispatch e ((classes, h) :: rest) = dispatch e rest.
Proof. intros Hout. cbn. now rewrite Hout. Qed.
End Equations.

Lemma logging_logging w evs evs' :
  logging (logging w evs) evs' = logging w (evs ++ evs').
Proof. unfold logging. cbn. now rewrite <- app_assoc. Qed.

(** A transport exception is an instance of [Exception] and of none of
    the other classes named in an [except] clause. *)
Lemma isinstance_TransportException message code c :
  isinstance (TransportException message code) c =
  match c with cls.Exception => true | _ => false end.
Proof. now destruct c. Qed.

(** ** Disciplines on events *)

Section Appends.
Variable P : Event -> Prop.
Context {A B : Type}.

Lemma appends_ret (a : A) : appends P (ret a).
Proof.
  intros w. split; [reflexivity|]. exists []. cbn.
  split; [now rewrite app_nil_r | constructor].
Qed.

Lemma appends_raise (e : PyExc) : appends P (raise (A := A) e).
Proof.
  intros w. split; [reflexivity|]. exists []. cbn.
  split; [now rewrite app_nil_r | constructor].
Qed.

Lemma appends_lift (o : outcome A) : appends P (lift o).
Proof.
  intros w. split; [reflexivity|]. exists []. cbn.
  split; [now rewrite app_nil_r | constructor].
Qed.

Lemma appends_getattr self (field : Instance -> A) :
  appends P (getattr self field).
Proof.
  intros w. unfold getattr. destruct (heap w !! self); cbn;
    (split; [reflexivity|]); exists [];
    (split; [now rewrite app_nil_r | constructor]).
Qed.

Lemma appends_emit ev : P ev -> appends P (emit ev).
Proof.
  intros Hev w. split; [reflexivity|]. exists [ev]. cbn.
  split; [reflexivity | now repeat constructor].
Qed.

Lemma appends_bind (m : M A) (f : A -> M B) :
  appends P m -> (forall a, appends P (f a)) -> appends P (bind m f).
Proof.
  intros Hm Hf w. unfold bind.
  destruct (Hm w) as [Hheap [evs [Htrace Hevs]]].
  destruct (m w) as [[a | e] w1]; cbn in *.
  - destruct (Hf a w1) as [Hheap' [evs' [Htrace' Hevs']]].
    split; [congruence|]. exists (evs ++ evs').
    split; [rewrite Htrace', Htrace; now rewrite app_assoc|].
    now apply Forall_app.
  - split; [assumption|]. now exists evs.
Qed.

Lemma appends_dispatch (e : PyExc) (clauses : list (Handler A)) :
  Forall (fun clause => forall e', appends P (clause.2 e')) clauses ->
  appends P (dispatch e clauses).
Proof.
  induction 1 as [| [classes h] rest Hh _ IH]; cbn.
  - apply appends_raise.
  - destruct (existsb (isinstance e) classes); [apply Hh | apply IH].
Qed.

Lemma appends_try_except (body : M A) (clauses : list (Handler A)) :
  appends P body ->
  Forall (fun clause => forall e, appends P (clause.2 e)) clauses ->
  appends P (try_except body clauses).
Proof.
  intros Hbody Hclauses w. unfold try_except.
  destruct (Hbody w) as [Hheap [evs [Htrace Hevs]]].
  destruct (body w) as [[a | e] w1]; cbn in *.
  - split; [assumption|]. now exists evs.
  - destruct (appends_dispatch e clauses Hclauses w1)
      as [Hheap' [evs' [Htrace' Hevs']]].
    split; [congruence|]. exists (evs ++ evs').
    split; [rewrite Htrace', Htrace; now rewrite app_assoc|].
    now apply Forall_app.
Qed.
End Appends.

Ltac appends_tac :=
  repeat first
    [ apply appends_try_except
    | apply appends_bind; [| intros ?]
    | apply appends_emit
    | apply appends_ret | apply appends_raise | apply appends_lift
    | apply appends_getattr
    | match goal with
      | |- appends _ (if ?b then _ else _) => destruct b
      | |- appends _ (match ?x with _ => _ end) => destruct x
      | |- Forall _ _ => constructor; cbn; [intros ?|]
      | |- Forall _ [] => constructor
      | |- fixed_timeout _ => exact I || reflexivity
      end ].

Section Discipline.
Variable env : Collaborators.

Lemma get_json_appends self url params :
  appends fixed_timeout (Transport.get_json env self url params).
Proof.
  unfold Transport.get_json, Transport.__headers, Transport.requests_get,
    logger_debug, logger_warning.
  appends_tac.
Qed.

Lemma post_json_appends self url payload files :
  appends fixed_timeout (Transport.post_json env self url payload files).
Proof.
  unfold Transport.post_json, Transport.__headers, Transport.requests_post,
    logger_warning.
  appends_tac.
Qed.

Lemma put_json_appends self url payload :
  appends fixed_timeout (Transport.put_json env self url payload).
Proof.
  unfold Transport.put_json, Transport.__headers, Transport.requests_put,
    logger_warning.
  appends_tac.
Qed.
End Discipline.

(** ** The status test *)

Lemma is_success_Response r :
  Transport.is_success (ObjResponse r) =
  Return ((status_code r <? 300) && (200 <=? status_code r)).
Proof. reflexivity. Qed.

Lemma in_range_true code :
  200 <= code < 300 -> (code <? 300) && (200 <=? code) = true.
Proof. intros [Hlo Hhi]. apply andb_true_intro. split; lia. Qed.

Lemma out_of_range_false code :
  ~ 200 <= code < 300 -> (code <? 300) && (200 <=? code) = false.
Proof.
  intros Hout. apply andb_false_iff.
  destruct (Z.ltb_spec code 300); [right | now left].
  apply Z.leb_gt. lia.
Qed.

(** ** The verbs, case by case *)

Ltac py_unfold :=
  unfold Transport.get_json, Transport.post_json, Transport.put_json,
    Transport.requests_get, Transport.requests_post, Transport.requests_put,
    Transport.__headers, get_request, post_request, put_request, logging,
    try_except, bind, ret, lift, emit, getattr, logger_debug, logger_warning,
    raise, TransportException1 in *.

(** Run a verb on a live [self] against a known answer of the client. *)
Ltac py_run live answer :=
  py_unfold; cbn; rewrite live; cbn; rewrite answer; cbn.

Ltac py_done := cbn; rewrite <- ?app_assoc; reflexivity.

Section Verbs.
Variable env : Collaborators.
Variables (w : World) (self : loc) (o : Instance).
Hypothesis live : heap w !! self = Some o.

Section Get.
Variables (url : string) (params : option (list (string * string))).

Lemma get_json_http_error r :
  send env (get_request url params) = Return r ->
  ~ 200 <= status_code r < 300 ->
  status_code r <> NOT_FOUND ->
  Transport.get_json env self url params w =
  (Raise (TransportException (MsgStr (text r)) (Some (status_code r))),
   logging w [Log DEBUG ("GET: " +:+ url); Sent (get_request url params);
              Log WARNING ("Request failed: " +:+ text r +:+ " (code: "
                             +:+ str_int (status_code r) +:+ ")")]).
Proof.
  intros answer Hcode Hfound. py_run live answer.
  rewrite (out_of_range_false _ Hcode).
  destruct (Z.eqb_spec (status_code r) NOT_FOUND) as [|_]; [contradiction|].
  py_done.
Qed.

Lemma get_json_connection_failure kind reason :
  send env (get_request url params) = Raise (RequestException kind reason) ->
  Transport.get_json env self url params w =
  (Raise (TransportException (MsgStr reason) None),
   logging w [Log DEBUG ("GET: " +:+ url); Sent (get_request url params);
              Log WARNING ("Connection error " +:+ reason)]).
Proof. intros answer. py_run live answer. py_done. Qed.
End Get.

Section Post.
Variables (url : string) (payload : PyVal)
          (files : option (list (string * string))).

Lemma post_json_http_error r :
  send env (post_request url payload files) = Return r ->
  ~ 200 <= status_code r < 300 ->
  Transport.post_json env self url payload files w =
  (Raise (TransportException (MsgStr (text r)) (Some (status_code r))),
   logging w [Sent (post_request url payload files);
              Log WARNING ("status_code: " +:+ str_int (status_code r));
              Log WARNING (text r)]).
Proof.
  intros answer Hcode. py_run live answer.
  rewrite (out_of_range_false _ Hcode). py_done.
Qed.

Lemma post_json_connection_failure kind reason :
  send env (post_request url payload files)
    = Raise (RequestException kind reason) ->
  Transport.post_json env self url payload files w =
  (Raise (TransportException (MsgStr reason) None),
   logging w [Sent (post_request url payload files);
              Log WARNING reason]).
Proof. intros answer. py_run live answer. py_done. Qed.
End Post.

Section Put.
Variables (url : string) (payload : PyVal).

(** The exception raised in the [try] for a failed status is caught
    again by the last clause, [except Exception], which raises a new
    one from its text alone. *)
Lemma put_json_http_error r :
  send env (put_request url payload) = Return r ->
  ~ 200 <= status_code r < 300 ->
  Transport.put_json env self url payload w =
  (Raise (TransportException (MsgStr (text r)) None),
   logging w [Sent (put_request url payload);
              Log WARNING ("status_code: " +:+ str_int (status_code r));
              Log WARNING (text r); Log WARNING (text r)]).
Proof.
  intros answer Hcode. py_run live answer.
  rewrite (out_of_range_false _ Hcode). py_done.
Qed.

Lemma put_json_connection_failure kind reason :
  send env (put_request url payload)
    = Raise (RequestException kind reason) ->
  Transport.put_json env self url payload w =
  (Raise (TransportException (MsgStr reason) None),
   logging w [Sent (put_request url payload); Log WARNING reason]).
Proof. intros answer. py_run live answer. py_done. Qed.
End Put.
End Verbs.

(** ** What the verbs send *)

Lemma requests_of_app evs evs' :
  requests_of (evs ++ evs') = requests_of evs ++ requests_of evs'.
Proof.
  induction evs as [| [level line | request] evs IH]; cbn;
    [reflexivity | assumption | now rewrite IH].
Qed.

(** The property yields [None] whatever the token is. *)
Lemma __headers_is_None w self o :
  heap w !! self = Some o ->
  Transport.__headers self w = (Return None, w).
Proof. intros live. unfold Transport.__headers. now rewrite (bind_getattr _ _ _ _ _ live). Qed.

(** The dictionary built and dropped by the property. *)
Lemma headers_local_fixed token :
  Transport.headers_local token !! "content-type" = Some "application/json" /\
  Transport.headers_local token !! "Connection" = Some "close".
Proof.
  unfold Transport.headers_local.
  destruct token as [tok|]; [destruct (truthy (PyStr tok))|];
    split; by simplify_map_eq.
Qed.

Lemma headers_local_Authorization token :
  Transport.headers_local token !! "Authorization" =
  match token with
  | Some tok => if String.eqb tok EmptyString then None
                else Some ("Bearer " +:+ tok)
  | None => None
  end.
Proof.
  unfold Transport.headers_local.
  destruct token as [tok|]; cbn; [destruct (String.eqb tok EmptyString); cbn|];
    by simplify_map_eq.
Qed.

(** Split on what is still open after the client answered: the status
    tests, and the decoder's result with the class of what it raised. *)
Ltac py_cases env :=
  repeat match goal with
         | |- context [if ?b then _ else _] =>
             match type of b with bool => destruct b; cbn end
         | |- context [Response_json env ?r] =>
             destruct (Response_json env r) as [? | []]; cbn
         | |- context [json_loads env ?s] =>
             destruct (json_loads env s) as [? | []]; cbn
         end.

Section Sends.
Variable env : Collaborators.
Variables (w : World) (self : loc) (o : Instance).
Hypothesis live : heap w !! self = Some o.

Lemma get_json_sends url params :
  requests_of (trace (Transport.get_json env self url params w).2) =
  requests_of (trace w) ++ [get_request url params].
Proof.
  py_unfold. cbn. rewrite live. cbn.
  destruct (send env _) as [r | []]; cbn; py_cases env;
    rewrite <- ?app_assoc, requests_of_app; reflexivity.
Qed.

Lemma post_json_sends url payload files :
  requests_of (trace (Transport.post_json env self url payload files w).2) =
  requests_of (trace w) ++ [post_request url payload files].
Proof.
  py_unfold. cbn. rewrite live. cbn.
  destruct (send env _) as [r | []]; cbn; py_cases env;
    rewrite <- ?app_assoc, requests_of_app; reflexivity.
Qed.

Lemma put_json_sends url payload :
  requests_of (trace (Transport.put_json env self url payload w).2) =
  requests_of (trace w) ++ [put_request url payload].
Proof.
  py_unfold. cbn. rewrite live. cbn.
  destruct (send env _) as [r | []]; cbn; py_cases env;
    rewrite <- ?app_assoc, requests_of_app; reflexivity.
Qed.
End Sends.

(** * The claims of the specification *)

(** ** Headers *)

(** C1. The claim is that every request carries [content-type] and
    [Connection] and, when a token was set, [Authorization].  The code
    builds that dictionary and then leaves the property without returning
    it: after [Transport().set_token("abc")] the property evaluates to
    [None], and each of the three verbs hands [headers=None] to the
    client, although the dropped dictionary had the three entries. *)
Theorem headers_are_not_sent :
  let env := example_env (Return (mkResponse 200 body_a1)) in
  let url := "http://localhost:3000/api/v0/results" in
  heap world_with_token !! 0%nat
    = Some (mkInstance (Some "abc") (Some "http://localhost:3000")) /\
  Transport.headers_local (Some "abc") !! "Authorization" = Some "Bearer abc" /\
  Transport.__headers 0%nat world_with_token = (Return None, world_with_token) /\
  map headers
    (requests_of (trace (Transport.get_json env 0%nat url None world_with_token).2))
    = [None] /\
  map headers
    (requests_of
       (trace (Transport.post_json env 0%nat url PyNone None world_with_token).2))
    = [None] /\
  map headers
    (requests_of (trace (Transport.put_json env 0%nat url PyNone world_with_token).2))
    = [None].
Proof. cbv zeta. repeat split; vm_compute; reflexivity. Qed.

(** ** Failed statuses *)

(** C2. Against a response with status 500 and body [server error],
    [get_json] and [post_json] raise a transport exception with that
    message and the code 500, as claimed; [put_json] raises one with the
    message and without the code, because its [except Exception] clause
    catches the exception that carried it. *)
Theorem put_json_loses_the_status_code :
  let env := example_env (Return server_error) in
  let url := "http://localhost:3000/api/v0/results" in
  (Transport.get_json env 0%nat url None world_with_token).1
    = Raise (TransportException (MsgStr "server error") (Some 500)) /\
  (Transport.post_json env 0%nat url (PyDict []) None world_with_token).1
    = Raise (TransportException (MsgStr "server error") (Some 500)) /\
  (Transport.put_json env 0%nat url (PyDict []) world_with_token).1
    = Raise (TransportException (MsgStr "server error") None).
Proof. cbv zeta. repeat split; vm_compute; reflexivity. Qed.

(** ** File attachments *)

(** C3. The claim is that [files=None] reaches the client as an empty
    list.  The test of the conditional expression is [not None], which is
    true, so the expression is [files] itself: [post_json] called with
    [files=None] hands [files=None] to the client. *)
Theorem post_json_passes_None_for_files :
  let env := example_env (Return (mkResponse 200 body_a1)) in
  let url := "http://localhost:3000/api/v0/results" in
  py_not PyNone = true /\
  map files
    (requests_of
       (trace (Transport.post_json env 0%nat url (PyDict []) None world_with_token).2))
    = [None].
Proof. cbv zeta. split; vm_compute; reflexivity. Qed.

(** ** Not found *)

(** C4. When the client answers a GET with status 404, [get_json] logs
    the warning [not found], returns [None] and raises nothing. *)
Theorem get_json_not_found env w self o url params r :
  heap w !! self = Some o ->
  send env (get_request url params) = Return r ->
  status_code r = NOT_FOUND ->
  Transport.get_json env self url params w =
  (Return PyNone,
   logging w [Log DEBUG ("GET: " +:+ url); Sent (get_request url params);
              Log WARNING "not found"]).
Proof.
  intros live answer Hcode. py_run live answer. rewrite Hcode. py_done.
Qed.

Lemma get_json_not_found_witness :
  Transport.get_json (example_env (Return (mkResponse 404 "Not Found"))) 0%nat
    "http://localhost:3000/api/v0/results/1" None world_with_token =
  (Return PyNone,
   logging world_with_token
     [Log DEBUG "GET: http://localhost:3000/api/v0/results/1";
      Sent (get_request "http://localhost:3000/api/v0/results/1" None);
      Log WARNING "not found"]).
Proof.
  apply (get_json_not_found (example_env (Return (mkResponse 404 "Not Found")))
           world_with_token 0%nat
           (mkInstance (Some "abc") (Some "http://localhost:3000"))
           "http://localhost:3000/api/v0/results/1" None
           (mkResponse 404 "Not Found")); reflexivity.
Defined.

(** ** Connection failures *)

(** C5. When the client raises a [RequestException] (a network error or
    a timeout), each verb raises a transport exception whose message is
    [str(error)] and which has no status code. *)
Theorem connection_failure_is_translated
    env w self o url params payload files kind reason :
  let error := RequestException kind reason in
  heap w !! self = Some o ->
  send env (get_request url params) = Raise error ->
  send env (post_request url payload files) = Raise error ->
  send env (put_request url payload) = Raise error ->
  (Transport.get_json env self url params w).1
    = Raise (TransportException (MsgStr (str error)) None) /\
  (Transport.post_json env self url payload files w).1
    = Raise (TransportException (MsgStr (str error)) None) /\
  (Transport.put_json env self url payload w).1
    = Raise (TransportException (MsgStr (str error)) None).
Proof.
  intros error live Hget Hpost Hput.
  rewrite (get_json_connection_failure env w self o live _ _ _ _ Hget).
  rewrite (post_json_connection_failure env w self o live _ _ _ _ _ Hpost).
  rewrite (put_json_connection_failure env w self o live _ _ _ _ Hput).
  now repeat split.
Qed.

Lemma connection_failure_is_translated_witness :
  let env := example_env (Raise (RequestException ConnectionError "refused")) in
  (Transport.get_json env 0%nat "http://h/a" None world_with_token).1
    = Raise (TransportException (MsgStr "refused") None) /\
  (Transport.post_json env 0%nat "http://h/a" (PyInt 1) None world_with_token).1
    = Raise (TransportException (MsgStr "refused") None) /\
  (Transport.put_json env 0%nat "http://h/a" (PyInt 1) world_with_token).1
    = Raise (TransportException (MsgStr "refused") None).
Proof.
  apply (connection_failure_is_translated
           (example_env (Raise (RequestException ConnectionError "refused")))
           world_with_token 0%nat
           (mkInstance (Some "abc") (Some "http://localhost:3000"))
           "http://h/a" None (PyInt 1) None ConnectionError "refused");
    reflexivity.
Defined.

(** ** The status test *)

(** C6. [is_success] is a function of the response alone; it is true
    exactly when the status code is in [[200, 300)], so it is true for
    200, 204 and 299 and false for 199, 300, 404 and 500. *)
Theorem is_success_range :
  (forall r, exists b,
      Transport.is_success (ObjResponse r) = Return b /\
      (b = true <-> 200 <= status_code r < 300)) /\
  Forall (fun code => forall body,
            Transport.is_success (ObjResponse (mkResponse code body)) = Return true)
         [200; 204; 299] /\
  Forall (fun code => forall body,
            Transport.is_success (ObjResponse (mkResponse code body)) = Return false)
         [199; 300; 404; 500].
Proof.
  split; [| split; repeat constructor].
  intros r. rewrite is_success_Response. eexists. split; [reflexivity|].
  rewrite andb_true_iff, Z.ltb_lt, Z.leb_le. lia.
Qed.

(** ** Successful GET *)

(** C7. When the client answers a GET with a status in [[200, 300)] and
    [response.json()] decodes the body to [v], [get_json] returns [v]. *)
Theorem get_json_returns_the_decoded_body env w self o url params r v :
  heap w !! self = Some o ->
  send env (get_request url params) = Return r ->
  200 <= status_code r < 300 ->
  Response_json env r = Return v ->
  Transport.get_json env self url params w =
  (Return v,
   logging w [Log DEBUG ("GET: " +:+ url); Sent (get_request url params)]).
Proof.
  intros live answer Hcode Hjson. py_run live answer.
  rewrite (in_range_true _ Hcode). cbn. rewrite Hjson. py_done.
Qed.

(** The example of the specification: status 200 and the body with the
    one member [a] equal to [1]. *)
Lemma get_json_returns_the_decoded_body_witness :
  Transport.get_json (example_env (Return (mkResponse 200 body_a1))) 0%nat
    "http://localhost:3000/api/v0/results/1" None world_with_token =
  (Return (PyDict [("a", PyInt 1)]),
   logging world_with_token
     [Log DEBUG "GET: http://localhost:3000/api/v0/results/1";
      Sent (get_request "http://localhost:3000/api/v0/results/1" None)]).
Proof.
  apply (get_json_returns_the_decoded_body
           (example_env (Return (mkResponse 200 body_a1))) world_with_token 0%nat
           (mkInstance (Some "abc") (Some "http://localhost:3000"))
           "http://localhost:3000/api/v0/results/1" None
           (mkResponse 200 body_a1) (PyDict [("a", PyInt 1)]));
    [reflexivity | reflexivity | cbn; lia | reflexivity].
Defined.

(** ** The timeout *)

(** C8. Whatever the state and the client's answer, each verb leaves the
    instances alone and every request it sends carries
    [timeout=REQUEST_TIMEOUT], which is 30; and when the client gives up
    with a [Timeout], the verb raises a transport exception. *)
Theorem requests_use_the_fixed_timeout env self url params payload files :
  REQUEST_TIMEOUT = 30 /\
  (appends fixed_timeout (Transport.get_json env self url params) /\
   appends fixed_timeout (Transport.post_json env self url payload files) /\
   appends fixed_timeout (Transport.put_json env self url payload)) /\
  (forall w o reason,
      heap w !! self = Some o ->
      (requests_of (trace (Transport.get_json env self url params w).2)
         = requests_of (trace w) ++ [get_request url params] /\
       (send env (get_request url params)
          = Raise (RequestException Timeout reason) ->
        (Transport.get_json env self url params w).1
          = Raise (TransportException (MsgStr reason) None))) /\
      (requests_of (trace (Transport.post_json env self url payload files w).2)
         = requests_of (trace w) ++ [post_request url payload files] /\
       (send env (post_request url payload files)
          = Raise (RequestException Timeout reason) ->
        (Transport.post_json env self url payload files w).1
          = Raise (TransportException (MsgStr reason) None))) /\
      (requests_of (trace (Transport.put_json env self url payload w).2)
         = requests_of (trace w) ++ [put_request url payload] /\
       (send env (put_request url payload)
          = Raise (RequestException Timeout reason) ->
        (Transport.put_json env self url payload w).1
          = Raise (TransportException (MsgStr reason) None)))).
Proof.
  split; [reflexivity|]. split.
  - auto using get_json_appends, post_json_appends, put_json_appends.
  - intros w o reason live. repeat split.
    + now apply get_json_sends with o.
    + intros answer.
      now rewrite (get_json_connection_failure env w self o live _ _ _ _ answer).
    + now apply post_json_sends with o.
    + intros answer.
      now rewrite (post_json_connection_failure env w self o live _ _ _ _ _ answer).
    + now apply put_json_sends with o.
    + intros answer.
      now rewrite (put_json_connection_failure env w self o live _ _ _ _ answer).
Qed.

Lemma requests_use_the_fixed_timeout_witness :
  let env := example_env (Raise (RequestException Timeout "read timed out")) in
  map timeout
    (requests_of (trace (Transport.put_json env 0%nat "http://h/a" (PyInt 1)
                           world_with_token).2)) = [30] /\
  (Transport.put_json env 0%nat "http://h/a" (PyInt 1) world_with_token).1
    = Raise (TransportException (MsgStr "read timed out") None).
Proof.
  intros env.
  destruct (requests_use_the_fixed_timeout env 0%nat "http://h/a" None (PyInt 1) None)
    as (_ & _ & translated).
  destruct (translated world_with_token
              (mkInstance (Some "abc") (Some "http://localhost:3000"))
              "read timed out" eq_refl)
    as (_ & _ & sent & raised).
  split; [now rewrite sent | apply raised; reflexivity].
Defined.

(** ** The setters *)

(** C9. On a live instance, [set_host] leaves the token, every other
    instance and the trace as they were, and stores the resolved host (or
    nothing, when the resolver raises); [set_token] returns [self], stores
    the token and leaves the host, every other instance and the trace as
    they were. *)
Theorem setters_frame env w self o host port token :
  heap w !! self = Some o ->
  (let after := (Transport.set_host env self host port w).2 in
   trace after = trace w /\
   (forall other, other <> self -> heap after !! other = heap w !! other) /\
   exists o', heap after !! self = Some o' /\
              __token o' = __token o /\
              match resolve_host env host port with
              | Return resolved => __host o' = Some resolved
              | Raise _ => __host o' = __host o
              end) /\
  (Transport.set_token self token w).1 = Return self /\
  (let after := (Transport.set_token self token w).2 in
   trace after = trace w /\
   (forall other, other <> self -> heap after !! other = heap w !! other) /\
   heap after !! self = Some (mkInstance token (__host o))).
Proof.
  intros live. unfold Transport.set_host, Transport.set_token, bind, lift,
    setattr, ret. cbn.
  split; [| split; [reflexivity | cbn; repeat split]].
  - destruct (resolve_host env host port) as [resolved | e]; cbn.
    + repeat split.
      * intros other Hother. now apply lookup_alter_ne.
      * rewrite lookup_alter_eq, live. cbn. eauto.
    + repeat split. eauto.
  - intros other Hother. now apply lookup_alter_ne.
  - now rewrite lookup_alter_eq, live.
Qed.

Lemma setters_frame_witness :
  let stored := mkInstance (Some "abc") (Some "http://localhost:3000") in
  let w := mkWorld (<[1%nat := stored]> (heap world_with_token)) [] in
  heap (Transport.set_token 0%nat (Some "xyz") w).2 !! 0%nat
    = Some (mkInstance (Some "xyz") (Some "http://localhost:3000")) /\
  heap (Transport.set_token 0%nat (Some "xyz") w).2 !! 1%nat = Some stored /\
  (Transport.set_token 0%nat (Some "xyz") w).1 = Return 0%nat.
Proof.
  intros stored w.
  destruct (setters_frame (example_env (Return server_error)) w 0%nat stored
              "example.com" 8080 (Some "xyz") eq_refl)
    as (_ & returned & _ & others & mine).
  split; [exact mine | split; [| exact returned]].
  etransitivity; [apply others; discriminate | reflexivity].
Defined.

(** ** The assertion *)

(** A [requests.Response()] that no server filled passes the assertion,
    and the comparison of its status, [None], with 300 raises a
    [TypeError]: on this [Response] instance [is_success] returns no
    boolean. *)
Lemma is_success_raises_on_a_new_Response :
  isinstance_Response ObjNewResponse = true /\
  Transport.is_success ObjNewResponse =
    Raise (TypeError
             "'>' not supported between instances of 'int' and 'NoneType'") /\
  ~ exists b, Transport.is_success ObjNewResponse = Return b.
Proof.
  split; [reflexivity | split; [reflexivity |]].
  intros [b Hb]. discriminate Hb.
Qed.

(** C10, as amended. [is_success] asserts that its argument is a
    [Response].  On a [Response] whose status code is an integer the
    assertion passes and [is_success] returns a boolean, true exactly for
    a status in [[200, 300)]; on a [Response] whose status code is [None]
    the assertion passes and the comparison raises a [TypeError]; on
    anything that is not a [Response] the assertion fails, also when the
    object has a status code that the test would have accepted. *)
Theorem is_success_asserts_a_Response :
  (forall o code,
      isinstance_Response o = true ->
      getattr_status_code o = Return (PyInt code) ->
      exists b, Transport.is_success o = Return b /\
                (b = true <-> 200 <= code < 300)) /\
  (forall o,
      isinstance_Response o = true ->
      getattr_status_code o = Return PyNone ->
      exists reason, Transport.is_success o = Raise (TypeError reason)) /\
  (forall o,
      isinstance_Response o = false ->
      Transport.is_success o = Raise AssertionError) /\
  (forall status,
      isinstance_Response (ObjDuck status) = false /\
      getattr_status_code (ObjDuck status) = Return (PyInt status)).
Proof.
  unfold Transport.is_success. repeat split.
  - intros o code Hresponse Hcode. rewrite Hresponse, Hcode. cbn.
    eexists. split; [reflexivity|].
    rewrite andb_true_iff, Z.ltb_lt, Z.leb_le. lia.
  - intros o Hresponse Hcode. rewrite Hresponse, Hcode. cbn. eauto.
  - intros o Hresponse. now rewrite Hresponse.
Qed.

Lemma is_success_asserts_a_Response_witness :
  (exists b, Transport.is_success (ObjResponse (mkResponse 204 EmptyString))
             = Return b /\ (b = true <-> 200 <= 204 < 300)) /\
  (exists reason, Transport.is_success ObjNewResponse = Raise (TypeError reason)) /\
  Transport.is_success (ObjDuck 200) = Raise AssertionError /\
  Transport.is_success (ObjValue (PyInt 200)) = Raise AssertionError.
Proof.
  destruct is_success_asserts_a_Response as (returns & raises & refuses & _).
  split; [| split; [| split]].
  - apply (returns (ObjResponse (mkResponse 204 EmptyString)) 204);
      reflexivity.
  - apply (raises ObjNewResponse); reflexivity.
  - apply (refuses (ObjDuck 200)). reflexivity.
  - apply (refuses (ObjValue (PyInt 200))). reflexivity.
Defined.

(** * Further properties of the module *)

(** ** The constructor and the accessors *)

Lemma alter_alter_same {V} (f g : V -> V) (i : nat) (m : gmap nat V) :
  alter f i (alter g i m) = alter (fun x => f (g x)) i m.
Proof.
  apply map_eq. intros j. destruct (decide (i = j)) as [<- | Hne].
  - rewrite !lookup_alter_eq. now destruct (m !! i).
  - now rewrite !lookup_alter_ne.
Qed.

(** X1. When the host resolves, [Transport(host, port)] returns a
    reference that was free, stores there an instance with no token and
    the resolved host, and logs the one line [OpenTMI host: ...]; the
    instances that existed are still where they were. *)
Theorem constructor_builds_a_fresh_instance env w host port resolved :
  resolve_host env host port = Return resolved ->
  let self := fresh (dom (heap w)) in
  heap w !! self = None /\
  Transport.__init__ env host port w =
  (Return self,
   mkWorld (<[self := mkInstance None (Some resolved)]> (heap w))
           (trace w ++ [Log INFO ("OpenTMI host: " +:+ resolved)])).
Proof.
  intros Hresolve self. split.
  - apply not_elem_of_dom, is_fresh.
  - unfold Transport.__init__, Transport.set_host, Transport.host, new_object,
      setattr, getattr, logger_info, emit, bind, lift, ret. cbn.
    rewrite Hresolve. cbn. fold self.
    rewrite alter_insert_eq, lookup_insert_eq. reflexivity.
Qed.

Lemma constructor_builds_a_fresh_instance_witness :
  heap world_with_token !! 1%nat = None /\
  Transport.__init__ (example_env (Return server_error)) "example.com" 8080
    world_with_token =
  (Return 1%nat,
   mkWorld (<[1%nat := mkInstance None (Some "http://example.com:8080")]>
              (heap world_with_token))
           (trace world_with_token
              ++ [Log INFO "OpenTMI host: http://example.com:8080"])).
Proof.
  apply (constructor_builds_a_fresh_instance (example_env (Return server_error))
           world_with_token "example.com" 8080 "http://example.com:8080").
  reflexivity.
Defined.

(** X2. When the host resolver raises, the constructor raises the same
    exception, logs nothing and leaves every existing instance as it
    was. *)
Theorem constructor_propagates_the_resolver_error env w host port error :
  resolve_host env host port = Raise error ->
  (Transport.__init__ env host port w).1 = Raise error /\
  trace (Transport.__init__ env host port w).2 = trace w /\
  forall other o, heap w !! other = Some o ->
                  heap (Transport.__init__ env host port w).2 !! other = Some o.
Proof.
  intros Hresolve.
  unfold Transport.__init__, Transport.set_host, new_object, bind, lift. cbn.
  rewrite Hresolve. cbn. repeat split.
  intros other o Hother. rewrite lookup_insert_ne; [assumption|].
  intros <-. apply elem_of_dom_2 in Hother.
  exact (is_fresh (dom (heap w)) Hother).
Qed.

Lemma constructor_propagates_the_resolver_error_witness :
  let env := mkCollaborators (fun _ => Return server_error)
               (fun _ => Return PyNone) (fun _ => Return PyNone)
               (fun _ _ => Raise (ValueError "bad host")) in
  (Transport.__init__ env "" 0 world_with_token).1
    = Raise (ValueError "bad host") /\
  trace (Transport.__init__ env "" 0 world_with_token).2
    = trace world_with_token.
Proof.
  intros env.
  destruct (constructor_propagates_the_resolver_error env world_with_token
              "" 0 (ValueError "bad host") eq_refl) as (raised & silent & _).
  split; [exact raised | exact silent].
Defined.

(** X3. On a live instance, what [set_host] stored is what the property
    [host] reads back, also when [set_token] was called in between; and
    reading [host] changes nothing. *)
Theorem host_reads_back_set_host env w self o host port resolved token :
  heap w !! self = Some o ->
  resolve_host env host port = Return resolved ->
  let after :=
    (bind (Transport.set_host env self host port)
          (fun _ => Transport.set_token self token) w).2 in
  Transport.host self after = (Return (Some resolved), after).
Proof.
  intros live Hresolve.
  unfold Transport.set_host, Transport.set_token, Transport.host, setattr,
    getattr, bind, lift, ret. cbn. rewrite Hresolve. cbn.
  rewrite !lookup_alter_eq, live. reflexivity.
Qed.

Lemma host_reads_back_set_host_witness :
  let after :=
    (bind (Transport.set_host (example_env (Return server_error)) 0%nat
             "example.com" 8080)
          (fun _ => Transport.set_token 0%nat (Some "xyz")) world_with_token).2 in
  Transport.host 0%nat after = (Return (Some "http://example.com:8080"), after).
Proof.
  apply (host_reads_back_set_host (example_env (Return server_error))
           world_with_token 0%nat
           (mkInstance (Some "abc") (Some "http://localhost:3000"))
           "example.com" 8080 "http://example.com:8080" (Some "xyz"));
    reflexivity.
Defined.

(** X4. Two calls of [set_token] in a row leave the world that the
    second call alone leaves: the last token wins and nothing of the
    first is kept. *)
Theorem set_token_last_wins self first second w :
  bind (Transport.set_token self first)
       (fun same => Transport.set_token same second) w
  = Transport.set_token self second w.
Proof.
  unfold Transport.set_token, setattr, bind, ret. cbn.
  now rewrite alter_alter_same.
Qed.

(** X5. When the host resolves, [set_host] and [set_token] on the same
    instance commute: either order leaves the same world. *)
Theorem setters_commute env w self host port resolved token :
  resolve_host env host port = Return resolved ->
  (bind (Transport.set_host env self host port)
        (fun _ => Transport.set_token self token) w).2
  = (bind (Transport.set_token self token)
          (fun _ => Transport.set_host env self host port) w).2.
Proof.
  intros Hresolve.
  unfold Transport.set_host, Transport.set_token, setattr, bind, lift, ret.
  cbn. rewrite Hresolve. cbn. now rewrite !alter_alter_same.
Qed.

Lemma setters_commute_witness :
  let env := example_env (Return server_error) in
  (bind (Transport.set_host env 0%nat "example.com" 8080)
        (fun _ => Transport.set_token 0%nat (Some "xyz")) fresh_world).2
  = (bind (Transport.set_token 0%nat (Some "xyz"))
          (fun _ => Transport.set_host env 0%nat "example.com" 8080)
          fresh_world).2.
Proof.
  apply (setters_commute (example_env (Return server_error)) fresh_world 0%nat
           "example.com" 8080 "http://example.com:8080" (Some "xyz")).
  reflexivity.
Defined.

(** ** Failed and successful statuses *)

(** X6. For every answer to a GET whose status is outside [[200, 300)]
    and is not 404, [get_json] logs one warning with the body and the
    status and raises a transport exception with the body as message and
    the status as code. *)
Theorem get_json_raises_on_failed_status env w self o url params r :
  heap w !! self = Some o ->
  send env (get_request url params) = Return r ->
  ~ 200 <= status_code r < 300 ->
  status_code r <> NOT_FOUND ->
  Transport.get_json env self url params w =
  (Raise (TransportException (MsgStr (text r)) (Some (status_code r))),
   logging w [Log DEBUG ("GET: " +:+ url); Sent (get_request url params);
              Log WARNING ("Request failed: " +:+ text r +:+ " (code: "
                             +:+ str_int (status_code r) +:+ ")")]).
Proof. intros live. now apply get_json_http_error with o. Qed.

Lemma get_json_raises_on_failed_status_witness :
  Transport.get_json (example_env (Return (mkResponse 301 "moved"))) 0%nat
    "http://h/a" None world_with_token =
  (Raise (TransportException (MsgStr "moved") (Some 301)),
   logging world_with_token
     [Log DEBUG "GET: http://h/a"; Sent (get_request "http://h/a" None);
      Log WARNING "Request failed: moved (code: 301)"]).
Proof.
  apply (get_json_raises_on_failed_status
           (example_env (Return (mkResponse 301 "moved"))) world_with_token 0%nat
           (mkInstance (Some "abc") (Some "http://localhost:3000"))
           "http://h/a" None (mkResponse 301 "moved"));
    [reflexivity | reflexivity | cbn; lia | discriminate].
Defined.

(** X7. [post_json] has no case for 404: for every answer whose status
    is outside [[200, 300)], 404 included, it logs the status and the body
    as two warnings and raises a transport exception with the body as
    message and the status as code. *)
Theorem post_json_raises_on_failed_status env w self o url payload files r :
  heap w !! self = Some o ->
  send env (post_request url payload files) = Return r ->
  ~ 200 <= status_code r < 300 ->
  Transport.post_json env self url payload files w =
  (Raise (TransportException (MsgStr (text r)) (Some (status_code r))),
   logging w [Sent (post_request url payload files);
              Log WARNING ("status_code: " +:+ str_int (status_code r));
              Log WARNING (text r)]).
Proof. intros live. now apply post_json_http_error with o. Qed.

Lemma post_json_raises_on_failed_status_witness :
  Transport.post_json (example_env (Return (mkResponse 404 "Not Found"))) 0%nat
    "http://h/a" (PyDict []) None world_with_token =
  (Raise (TransportException (MsgStr "Not Found") (Some 404)),
   logging world_with_token
     [Sent (post_request "http://h/a" (PyDict []) None);
      Log WARNING "status_code: 404"; Log WARNING "Not Found"]).
Proof.
  apply (post_json_raises_on_failed_status
           (example_env (Return (mkResponse 404 "Not Found"))) world_with_token
           0%nat (mkInstance (Some "abc") (Some "http://localhost:3000"))
           "http://h/a" (PyDict []) None (mkResponse 404 "Not Found"));
    [reflexivity | reflexivity | cbn; lia].
Defined.

(** X8. When the answer to a POST or a PUT has a status in
    [[200, 300)] and [json.loads] decodes its text to [v], the verb
    returns [v]; it sent its one request and logged nothing. *)
Theorem post_and_put_return_the_decoded_text
    env w self o url payload files r r' v v' :
  heap w !! self = Some o ->
  send env (post_request url payload files) = Return r ->
  200 <= status_code r < 300 ->
  json_loads env (text r) = Return v ->
  send env (put_request url payload) = Return r' ->
  200 <= status_code r' < 300 ->
  json_loads env (text r') = Return v' ->
  Transport.post_json env self url payload files w
    = (Return v, logging w [Sent (post_request url payload files)]) /\
  Transport.put_json env self url payload w
    = (Return v', logging w [Sent (put_request url payload)]).
Proof.
  intros live Hpost Hcode Hjson Hput Hcode' Hjson'. split.
  - py_run live Hpost. rewrite (in_range_true _ Hcode). cbn.
    rewrite Hjson. py_done.
  - py_run live Hput. rewrite (in_range_true _ Hcode'). cbn.
    rewrite Hjson'. py_done.
Qed.

Lemma post_and_put_return_the_decoded_text_witness :
  let env := example_env (Return (mkResponse 201 "[1,true]")) in
  Transport.post_json env 0%nat "http://h/a" PyNone None world_with_token
    = (Return (PyList [PyInt 1; PyBool true]),
       logging world_with_token [Sent (post_request "http://h/a" PyNone None)]) /\
  Transport.put_json env 0%nat "http://h/a" PyNone world_with_token
    = (Return (PyList [PyInt 1; PyBool true]),
       logging world_with_token [Sent (put_request "http://h/a" PyNone)]).
Proof.
  apply (post_and_put_return_the_decoded_text
           (example_env (Return (mkResponse 201 "[1,true]"))) world_with_token
           0%nat (mkInstance (Some "abc") (Some "http://localhost:3000"))
           "http://h/a" PyNone None (mkResponse 201 "[1,true]")
           (mkResponse 201 "[1,true]") (PyList [PyInt 1; PyBool true])
           (PyList [PyInt 1; PyBool true]));
    first [reflexivity | cbn; lia].
Defined.

(** ** Bodies that do not decode *)

(** X9. When the answer to a GET has a status in [[200, 300)] and
    [response.json()] raises a [ValueError] or a [TypeError], [get_json]
    raises a transport exception with [str(error)] as message and no
    code.  When the error is a [RequestException] as well, as the
    [JSONDecodeError] of [requests] is, the first clause takes it and the
    warning [Connection error ...] is logged; otherwise no warning is
    logged. *)
Theorem get_json_wraps_a_decoding_error env w self o url params r error :
  heap w !! self = Some o ->
  send env (get_request url params) = Return r ->
  200 <= status_code r < 300 ->
  Response_json env r = Raise error ->
  isinstance error cls.ValueError || isinstance error cls.TypeError = true ->
  Transport.get_json env self url params w =
  (Raise (TransportException (MsgStr (str error)) None),
   logging w
     ([Log DEBUG ("GET: " +:+ url); Sent (get_request url params)]
        ++ if isinstance error cls.RequestException
           then [Log WARNING ("Connection error " +:+ str error)]
           else [])).
Proof.
  intros live answer Hcode Hjson Hclass. py_run live answer.
  rewrite (in_range_true _ Hcode). cbn. rewrite Hjson.
  destruct error as [[] ? | | | | | | | | ]; try discriminate; py_done.
Qed.

Lemma get_json_wraps_a_decoding_error_witness :
  Transport.get_json (requests_env (Return (mkResponse 204 EmptyString))) 0%nat
    "http://h/a" None world_with_token =
  (Raise (TransportException (MsgStr "Expecting value") None),
   logging world_with_token
     [Log DEBUG "GET: http://h/a"; Sent (get_request "http://h/a" None);
      Log WARNING "Connection error Expecting value"]).
Proof.
  apply (get_json_wraps_a_decoding_error
           (requests_env (Return (mkResponse 204 EmptyString))) world_with_token
           0%nat (mkInstance (Some "abc") (Some "http://localhost:3000"))
           "http://h/a" None (mkResponse 204 EmptyString)
           (RequestException JSONDecodeError "Expecting value"));
    first [reflexivity | cbn; lia].
Defined.

(** X10. When the answer to a POST or a PUT has a status in
    [[200, 300)] and [json.loads] raises a [ValueError] or a [TypeError],
    the verb raises a transport exception whose message is the exception
    object itself, not its text, with no code; it logs no warning. *)
Theorem post_and_put_wrap_the_decoding_error_object
    env w self o url payload files r r' error :
  heap w !! self = Some o ->
  send env (post_request url payload files) = Return r ->
  200 <= status_code r < 300 ->
  json_loads env (text r) = Raise error ->
  send env (put_request url payload) = Return r' ->
  200 <= status_code r' < 300 ->
  json_loads env (text r') = Raise error ->
  isinstance error cls.RequestException = false ->
  isinstance error cls.ValueError || isinstance error cls.TypeError = true ->
  Transport.post_json env self url payload files w
    = (Raise (TransportException (MsgExc error) None),
       logging w [Sent (post_request url payload files)]) /\
  Transport.put_json env self url payload w
    = (Raise (TransportException (MsgExc error) None),
       logging w [Sent (put_request url payload)]).
Proof.
  intros live Hpost Hcode Hjson Hput Hcode' Hjson' Hrequest Hclass. split.
  - py_run live Hpost. rewrite (in_range_true _ Hcode). cbn.
    rewrite Hjson. destruct error; try discriminate; py_done.
  - py_run live Hput. rewrite (in_range_true _ Hcode'). cbn.
    rewrite Hjson'. destruct error; try discriminate; py_done.
Qed.

Lemma post_and_put_wrap_the_decoding_error_object_witness :
  let env := example_env (Return (mkResponse 200 "<html>")) in
  (Transport.post_json env 0%nat "http://h/a" PyNone None world_with_token).1
    = Raise (TransportException (MsgExc (ValueError "Expecting value")) None) /\
  (Transport.put_json env 0%nat "http://h/a" PyNone world_with_token).1
    = Raise (TransportException (MsgExc (ValueError "Expecting value")) None).
Proof.
  intros env.
  destruct (post_and_put_wrap_the_decoding_error_object env world_with_token
              0%nat (mkInstance (Some "abc") (Some "http://localhost:3000"))
              "http://h/a" PyNone None (mkResponse 200 "<html>")
              (mkResponse 200 "<html>") (ValueError "Expecting value")
              eq_refl eq_refl ltac:(cbn; lia) eq_refl eq_refl ltac:(cbn; lia)
              eq_refl eq_refl eq_refl) as [posted put].
  split; [now rewrite posted | now rewrite put].
Defined.

(** ** What escapes the verbs *)

(** X11. Whatever the state, the client and the decoder do, an
    exception that leaves [put_json] is either a transport exception
    without a status code or not an instance of [Exception] at all
    (KeyboardInterrupt, SystemExit): the clause [except Exception] lets no
    other exception out, and no clause passes a code. *)
Theorem put_json_raises_only_bare_transport_exceptions
    env self url payload w error :
  (Transport.put_json env self url payload w).1 = Raise error ->
  (exists message, error = TransportException message None) \/
  isinstance error cls.Exception = false.
Proof.
  py_unfold. cbn.
  destruct (heap w !! self) as [o |]; cbn;
    [destruct (send env _) as [r | []]; cbn; py_cases env |];
    intros [= <-]; first [left; eexists; reflexivity | right; reflexivity].
Qed.

Lemma put_json_raises_only_bare_transport_exceptions_witness :
  (Transport.put_json (example_env (Return server_error)) 0%nat "http://h/a"
     (PyDict []) world_with_token).1
    = Raise (TransportException (MsgStr "server error") None) /\
  ((exists message,
      TransportException (MsgStr "server error") None
      = TransportException message None) \/
   isinstance (TransportException (MsgStr "server error") None) cls.Exception
   = false).
Proof.
  split; [reflexivity|].
  apply (put_json_raises_only_bare_transport_exceptions
           (example_env (Return server_error)) 0%nat "http://h/a" (PyDict [])
           world_with_token).
  reflexivity.
Defined.

(** X12. When the client raises an exception that is neither a
    [RequestException] nor a [ValueError], [TypeError] or [KeyError],
    [get_json] and [post_json] let it through as it is and log no
    warning.  [put_json] logs it and raises a transport exception with its
    text when it is an instance of [Exception], and lets it through as it
    is, without a warning, when it is not. *)
Theorem other_exceptions_escape_get_and_post
    env w self o url params payload files error :
  heap w !! self = Some o ->
  send env (get_request url params) = Raise error ->
  send env (post_request url payload files) = Raise error ->
  send env (put_request url payload) = Raise error ->
  existsb (isinstance error)
    [cls.RequestException; cls.ValueError; cls.TypeError; cls.KeyError] = false ->
  Transport.get_json env self url params w
    = (Raise error,
       logging w [Log DEBUG ("GET: " +:+ url); Sent (get_request url params)]) /\
  Transport.post_json env self url payload files w
    = (Raise error, logging w [Sent (post_request url payload files)]) /\
  Transport.put_json env self url payload w
    = if isinstance error cls.Exception
      then (Raise (TransportException (MsgStr (str error)) None),
            logging w [Sent (put_request url payload);
                       Log WARNING (str error)])
      else (Raise error, logging w [Sent (put_request url payload)]).
Proof.
  intros live Hget Hpost Hput Hclass. repeat split.
  - py_run live Hget. destruct error; try discriminate; py_done.
  - py_run live Hpost. destruct error; try discriminate; py_done.
  - py_run live Hput. destruct error; try discriminate; py_done.
Qed.

Lemma other_exceptions_escape_get_and_post_witness :
  let env := example_env (Raise (OtherException "location parse error")) in
  (Transport.get_json env 0%nat "http://h/a" None world_with_token).1
    = Raise (OtherException "location parse error") /\
  (Transport.post_json env 0%nat "http://h/a" PyNone None world_with_token).1
    = Raise (OtherException "location parse error") /\
  (Transport.put_json env 0%nat "http://h/a" PyNone world_with_token).1
    = Raise (TransportException (MsgStr "location parse error") None).
Proof.
  intros env.
  destruct (other_exceptions_escape_get_and_post env world_with_token 0%nat
              (mkInstance (Some "abc") (Some "http://localhost:3000"))
              "http://h/a" None PyNone None
              (OtherException "location parse error")
              eq_refl eq_refl eq_refl eq_refl eq_refl)
    as (got & posted & put).
  now rewrite got, posted, put.
Defined.

(** The same for an exception outside [Exception]: it leaves all three
    verbs as it is. *)
Lemma interrupts_escape_all_verbs :
  let env := example_env (Raise (BaseExceptionOnly "KeyboardInterrupt")) in
  (Transport.get_json env 0%nat "http://h/a" None world_with_token).1
    = Raise (BaseExceptionOnly "KeyboardInterrupt") /\
  (Transport.post_json env 0%nat "http://h/a" PyNone None world_with_token).1
    = Raise (BaseExceptionOnly "KeyboardInterrupt") /\
  (Transport.put_json env 0%nat "http://h/a" PyNone world_with_token).1
    = Raise (BaseExceptionOnly "KeyboardInterrupt").
Proof. cbv zeta. repeat split; vm_compute; reflexivity. Qed.

(** X13. On a live instance [get_json] returns, rather than raises,
    exactly when the client answered and either the status is in
    [[200, 300)] and [response.json()] decoded the body, or the status is
    404. *)
Theorem get_json_returns_iff env w self o url params :
  heap w !! self = Some o ->
  (exists v, (Transport.get_json env self url params w).1 = Return v) <->
  (exists r, send env (get_request url params) = Return r /\
             ((200 <= status_code r < 300 /\
               exists v, Response_json env r = Return v) \/
              status_code r = NOT_FOUND)).
Proof.
  intros live. py_unfold. cbn. rewrite live. cbn.
  destruct (send env _) as [r | error]; cbn.
  - destruct (Z.ltb_spec (status_code r) 300) as [Hhi | Hhi];
      destruct (Z.leb_spec 200 (status_code r)) as [Hlo | Hlo]; cbn.
    + destruct (Response_json env r) as [v | error] eqn:Hjson; cbn.
      * split; [intros _ | eauto].
        exists r. split; [reflexivity|]. left. split; [lia | eauto].
      * split.
        -- intros [v Hv]. destruct error; discriminate Hv.
        -- intros (r' & [= <-] & [[_ [v Hv]] | Hcode]);
             [congruence | unfold NOT_FOUND in Hcode; lia].
    + destruct (Z.eqb_spec (status_code r) NOT_FOUND) as [Hcode | Hcode]; cbn.
      * unfold NOT_FOUND in Hcode. lia.
      * split; [intros [v Hv]; discriminate Hv|].
        intros (r' & [= <-] & [[Hrange _] | Hfound]); [lia | contradiction].
    + destruct (Z.eqb_spec (status_code r) NOT_FOUND) as [Hcode | Hcode]; cbn.
      * split; [intros _ | eauto]. exists r. split; [reflexivity | now right].
      * split; [intros [v Hv]; discriminate Hv|].
        intros (r' & [= <-] & [[Hrange _] | Hfound]); [lia | contradiction].
    + unfold NOT_FOUND. destruct (Z.eqb_spec (status_code r) 404); [lia|]. cbn.
      split; [intros [v Hv]; discriminate Hv|].
      intros (r' & [= <-] & [[Hrange _] | Hfound]);
        [lia | unfold NOT_FOUND in Hfound; lia].
  - split.
    + intros [v Hv]. destruct error; discriminate Hv.
    + intros (r & Hr & _). discriminate Hr.
Qed.

Lemma get_json_returns_iff_witness :
  (exists v,
      (Transport.get_json (example_env (Return (mkResponse 404 "gone"))) 0%nat
         "http://h/a" None world_with_token).1 = Return v) <->
  (exists r, Return (mkResponse 404 "gone") = Return r /\
             ((200 <= status_code r < 300 /\
               exists v, example_loads (text r) = Return v) \/
              status_code r = NOT_FOUND)).
Proof.
  apply (get_json_returns_iff (example_env (Return (mkResponse 404 "gone")))
           world_with_token 0%nat
           (mkInstance (Some "abc") (Some "http://localhost:3000"))
           "http://h/a" None).
  reflexivity.
Defined.

(** ** The token *)

(** X14. The dictionary that the property [__headers] builds before it
    drops it has [content-type] and [Connection], has [Authorization] with
    [Bearer] and the token exactly when the token is a non-empty string,
    and has no other key. *)
Theorem headers_dictionary token key :
  Transport.headers_local token !! key =
  if decide (key = "content-type") then Some "application/json"
  else if decide (key = "Connection") then Some "close"
  else if decide (key = "Authorization") then
    match token with
    | Some tok => if String.eqb tok EmptyString then None
                  else Some ("Bearer " +:+ tok)
    | None => None
    end
  else None.
Proof.
  unfold Transport.headers_local.
  destruct token as [tok |]; cbn; [destruct (String.eqb tok EmptyString); cbn |];
    repeat case_decide; by simplify_map_eq.
Qed.

(** X15. For an instance whose token is [None] or a string, the stored
    token and host have no part in a request: on two stores in which
    [self] is live with such fields, whichever they are, each verb gives
    the same result and appends the same events. *)
Theorem verbs_ignore_the_stored_fields
    env self url params payload files store store' events o o' :
  store !! self = Some o ->
  store' !! self = Some o' ->
  let w := mkWorld store events in
  let w' := mkWorld store' events in
  ((Transport.get_json env self url params w).1
     = (Transport.get_json env self url params w').1 /\
   trace (Transport.get_json env self url params w).2
     = trace (Transport.get_json env self url params w').2) /\
  ((Transport.post_json env self url payload files w).1
     = (Transport.post_json env self url payload files w').1 /\
   trace (Transport.post_json env self url payload files w).2
     = trace (Transport.post_json env self url payload files w').2) /\
  ((Transport.put_json env self url payload w).1
     = (Transport.put_json env self url payload w').1 /\
   trace (Transport.put_json env self url payload w).2
     = trace (Transport.put_json env self url payload w').2).
Proof.
  intros live live' w w'. subst w w'. py_unfold. cbn.
  rewrite live, live'. cbn.
  repeat split;
    (destruct (send env _) as [r | []]; cbn; py_cases env; reflexivity).
Qed.

Lemma verbs_ignore_the_stored_fields_witness :
  let env := example_env (Return (mkResponse 200 body_a1)) in
  (Transport.get_json env 0%nat "http://h/a" None
     (mkWorld (heap fresh_world) [])).1
  = (Transport.get_json env 0%nat "http://h/a" None
       (mkWorld (heap world_with_token) [])).1.
Proof.
  intros env.
  destruct (verbs_ignore_the_stored_fields env 0%nat "http://h/a" None PyNone
              None (heap fresh_world) (heap world_with_token) []
              (mkInstance None (Some "http://localhost:3000"))
              (mkInstance (Some "abc") (Some "http://localhost:3000"))
              eq_refl eq_refl) as [[same _] _].
  exact same.
Defined.

(** X16. On a live instance [post_json] returns, rather than raises,
    exactly when the client answered with a status in [[200, 300)] and
    [json.loads] decoded the text; and so does [put_json].  A 404 is no
    exception to that. *)
Theorem post_and_put_return_iff env w self o url payload files :
  heap w !! self = Some o ->
  ((exists v, (Transport.post_json env self url payload files w).1 = Return v) <->
   (exists r, send env (post_request url payload files) = Return r /\
              200 <= status_code r < 300 /\
              exists v, json_loads env (text r) = Return v)) /\
  ((exists v, (Transport.put_json env self url payload w).1 = Return v) <->
   (exists r, send env (put_request url payload) = Return r /\
              200 <= status_code r < 300 /\
              exists v, json_loads env (text r) = Return v)).
Proof.
  intros live. py_unfold. cbn. rewrite live. cbn.
  split.
  all: destruct (send env _) as [r | error]; cbn;
    [| split; [intros [v Hv]; destruct error; discriminate Hv
              | intros (r & Hr & _); discriminate Hr]].
  all: destruct (Z.ltb_spec (status_code r) 300) as [Hhi | Hhi];
    destruct (Z.leb_spec 200 (status_code r)) as [Hlo | Hlo]; cbn;
    try (split; [intros [v Hv]; discriminate Hv
                | intros (r' & [= <-] & Hrange & _); lia]).
  all: destruct (json_loads env (text r)) as [v | error] eqn:Hjson; cbn;
    [ split; [intros _ | eauto]; exists r; repeat split; eauto; lia
    | split; [intros [v Hv]; destruct error; discriminate Hv
             | intros (r' & [= <-] & _ & v & Hv); congruence] ].
Qed.

Lemma post_and_put_return_iff_witness :
  let env := example_env (Return (mkResponse 404 "Not Found")) in
  ~ exists v,
      (Transport.post_json env 0%nat "http://h/a" PyNone None
         world_with_token).1 = Return v.
Proof.
  intros env returned.
  destruct (post_and_put_return_iff env world_with_token 0%nat
              (mkInstance (Some "abc") (Some "http://localhost:3000"))
              "http://h/a" PyNone None eq_refl) as [[answered _] _].
  destruct (answered returned) as (r & [= <-] & Hrange & _).
  cbn in Hrange. lia.
Defined.
